(** * oo2po: OpenOffice.org SDF records to Gettext PO units

    A shallow embedding of [translate/convert/oo2po.py] and the properties
    its specification states about it.

    Conventions of the embedding.
    - A Python [str] is a [string]; a character stands for the code point of
      its number, so the strings covered are those over code points 0..255.
    - A [dict] keyed by language tags is a [gmap string _].
    - [logger.error] / [logger.warning] calls and raised exceptions are made
      explicit: a computation of type [M A] yields the log records it emitted,
      in order, and either an exception or a value.
    - Objects of [translate.storage.oo] and [translate.storage.po] are not
      part of this file's source; they are modelled by the attributes the
      converter reads and the methods it calls on them. *)

From Stdlib Require Import ZArith Ascii.
From stdpp Require Import base option list strings gmap.


(** ** Python strings *)

Module Py.

(** [str.isspace] per character, for code points below 256:
    U+0009..U+000D, U+001C..U+0020, U+0085 and U+00A0. *)
Definition isspace_char (c : ascii) : bool :=
  let n := Ascii.nat_of_ascii c in
  (((9 <=? n) && (n <=? 13)) || ((28 <=? n) && (n <=? 32))
   || (n =? 133) || (n =? 160))%nat.

(** [str.isdigit] per character, for code points below 256:
    '0'..'9' and the superscripts U+00B2, U+00B3, U+00B9. *)
Definition isdigit_char (c : ascii) : bool :=
  let n := Ascii.nat_of_ascii c in
  (((48 <=? n) && (n <=? 57)) || (n =? 178) || (n =? 179) || (n =? 185))%nat.

Fixpoint all_chars (p : ascii -> bool) (s : string) : bool :=
  match s with
  | EmptyString => true
  | String c s' => p c && all_chars p s'
  end.

(** Truth value of a [str]: true unless empty. *)
Definition truthy (s : string) : bool :=
  match s with
  | EmptyString => false
  | String _ _ => true
  end.

(** [s.isdigit()]: at least one character and all of them digits. *)
Definition isdigit (s : string) : bool := truthy s && all_chars isdigit_char s.

Fixpoint lstrip (s : string) : string :=
  match s with
  | EmptyString => EmptyString
  | String c s' => if isspace_char c then lstrip s' else s
  end.

Definition rstrip (s : string) : string := String.rev (lstrip (String.rev s)).

(** [s.strip()] with no argument. *)
Definition strip (s : string) : string := rstrip (lstrip s).

(** [sep.join(parts)]. *)
Definition join (sep : string) (parts : list string) : string :=
  String.concat sep parts.

(** Truth value of an optional [str] ([None] or a string). *)
Definition truthy_opt (o : option string) : bool :=
  match o with
  | None => false
  | Some s => truthy s
  end.

End Py.

(** ** Effects: log records and exceptions *)

Inductive exn : Type :=
| IndexError
| ValueError (msg : string).

Inductive level : Type := ERROR | WARNING.

(** One call [logger.<level>(fmt, *args)]. *)
Record logrecord : Type := LogRecord {
  log_level : level;
  log_fmt : string;
  log_args : list string
}.

Definition M (A : Type) : Type := (list logrecord * (exn + A))%type.

Definition ret {A : Type} (a : A) : M A := ([], inr a).

Definition raise {A : Type} (e : exn) : M A := ([], inl e).

Definition bind {A B : Type} (m : M A) (k : A -> M B) : M B :=
  match m with
  | (l, inl e) => (l, inl e)
  | (l, inr a) => let '(l', r) := k a in (l ++ l', r)
  end.

Notation "x <- m ;; k" := (bind m (fun x => k))
  (at level 100, m at next level, right associativity, only parsing).

Definition logger_error (fmt : string) (args : list string) : M unit :=
  ([LogRecord ERROR fmt args], inr tt).

Definition logger_warning (fmt : string) (args : list string) : M unit :=
  ([LogRecord WARNING fmt args], inr tt).

(** [l[0]] on a Python list. *)
Definition index0 {A : Type} (l : list A) : M A :=
  match l with
  | [] => raise IndexError
  | x :: _ => ret x
  end.

(** The log of a computation and its outcome. *)
Definition logs {A : Type} (m : M A) : list logrecord := fst m.
Definition outcome {A : Type} (m : M A) : exn + A := snd m.

(** ** Data model *)

(** Modelled from the spec: [oo.ooline], one language's rendering of a
    record: the structural key returned by [getkey()] and the three textual
    subfields. *)
Record ooline : Type := Ooline {
  getkey : list string;
  text : string;
  quickhelptext : string;
  title : string
}.

(** Modelled from the spec: [oo.ooline()] with no parts, the synthetic
    projection whose subfields are all the empty string. *)
Definition ooline_blank : ooline :=
  {| getkey := []; text := ""; quickhelptext := ""; title := "" |}.

(** [oo.oounit] as the converter reads it: [theoo.languages] and
    [theoo.lines]. *)
Record oounit : Type := Oounit {
  languages : gmap string ooline;
  lines : list ooline
}.

(** The subfield names iterated by [convertelement]. *)
Inductive subkey : Type := Text | Quickhelptext | Title.

Definition subkey_name (k : subkey) : string :=
  match k with
  | Text => "text"
  | Quickhelptext => "quickhelptext"
  | Title => "title"
  end.

(** [getattr(part, subkey)] for the three names above. *)
Definition getattr (part : ooline) (k : subkey) : string :=
  match k with
  | Text => text part
  | Quickhelptext => quickhelptext part
  | Title => title part
  end.

(** The tuple [("text", "quickhelptext", "title")]. *)
Definition subkeys : list subkey := [Text; Quickhelptext; Title].

(** Modelled from the spec: [po.pounit], a translation unit with its source
    and target strings, encoding tag, location references in the order they
    were added, and notes as (text, origin) pairs in the order they were
    added. *)
Record pounit : Type := Pounit {
  source : string;
  target : string;
  encoding : string;
  locations : list string;
  notes : list (string * string)
}.

(** [po.pounit(text, encoding=enc)]. *)
Definition pounit_new (src enc : string) : pounit :=
  {| source := src; target := ""; encoding := enc; locations := []; notes := [] |}.

(** [unit.target = t]. *)
Definition set_target (u : pounit) (t : string) : pounit :=
  {| source := source u; target := t; encoding := encoding u;
     locations := locations u; notes := notes u |}.

(** [unit.addlocation(loc)]. *)
Definition addlocation (u : pounit) (loc : string) : pounit :=
  {| source := source u; target := target u; encoding := encoding u;
     locations := locations u ++ [loc]; notes := notes u |}.

(** [unit.addnote(txt, origin=origin)]. *)
Definition addnote (u : pounit) (txt origin : string) : pounit :=
  {| source := source u; target := target u; encoding := encoding u;
     locations := locations u; notes := notes u ++ [(txt, origin)] |}.

(** The notes of a unit whose origin is "developer". *)
Definition developer_notes (u : pounit) : list string :=
  (filter (fun n => n.2 = "developer") (notes u)).*1.

(** The converter object: the attributes set by [oo2po.__init__].  The
    target language is [None] when the command line gave none. *)
Record oo2po : Type := Oo2po {
  sourcelanguage : string;
  targetlanguage : option string;
  blankmsgstr : bool;
  long_keys : bool
}.

(** [k in d] followed by [d[k]] for a key that may be [None]. *)
Definition dict_get (d : gmap string ooline) (k : option string) : option ooline :=
  match k with
  | Some k => d !! k
  | None => None
  end.

(** [oo.oofile] as the converter reads it: the file name, the records in
    source order, and the language tags present, as a list. *)
Record oofile : Type := Oofile {
  oofile_filename : string;
  oofile_units : list oounit;
  oofile_languages : list string
}.

(** Modelled from the spec: [po.pofile], the output catalog.  Its class is
    not part of this file's source, so the catalog is kept as the sequence
    of method calls the converter makes on it, in call order. *)
Inductive pocall : Type :=
| InitHeaders (x_accelerator_marker x_merge_on report_msgid_bugs_to : string)
| HeaderAddnote (txt origin : string)
| SetSourceLanguage (lang : string)
| SetTargetLanguage (lang : option string)
| AddUnit (unit : pounit)
| RemoveDuplicates (duplicatestyle : string).

Definition pofile : Type := list pocall.

(** The units added to a catalog, in insertion order. *)
Definition added_units (f : pofile) : list pounit :=
  omap (fun c => match c with AddUnit u => Some u | _ => None end) f.

(** The styles of the duplicate-resolution runs on a catalog. *)
Definition duplicate_runs (f : pofile) : list string :=
  omap (fun c => match c with RemoveDuplicates d => Some d | _ => None end) f.

(** The command-line options read by [verifyoptions]. *)
Record cli_options : Type := CliOptions {
  pot : bool;
  opt_targetlanguage : option string
}.

(** The input file object of [convertoo]: its [filename] attribute when it
    has one, and what [read()] returns. *)
Record infile : Type := Infile {
  infile_filename : option string;
  infile_read : string
}.

Section Converter.

(** [oo.makekey(ookey, long_keys)], defined in [translate.storage.oo]. *)
Variable makekey : list string -> bool -> string.

(** [oo2po.maketargetunit]. *)
Definition maketargetunit (part1 part2 translators_comment : ooline)
    (key : string) (k : subkey) : option pounit :=
  let text1 := getattr part1 k in
  if negb (Py.truthy text1) then None
  else
    let text2 := getattr part2 k in
    let unit := pounit_new text1 "UTF-8" in
    let unit := set_target unit text2 in
    let unit := addlocation unit (key +:+ "." +:+ subkey_name k) in
    let unit :=
      if Py.truthy (Py.strip (getattr translators_comment k))
      then addnote unit (getattr translators_comment k) "developer"
      else unit in
    Some unit.

(** [oo2po.convertelement]. *)
Definition convertelement (self : oo2po) (theoo : oounit) : M (list pounit) :=
  match languages theoo !! sourcelanguage self with
  | None =>
      line0 <- index0 (lines theoo) ;;
      _ <- logger_error "%s language not found: %s"
             [Py.join "/" (getkey line0); sourcelanguage self] ;;
      ret []
  | Some part1 =>
      let part2 :=
        if blankmsgstr self then ooline_blank
        else match dict_get (languages theoo) (targetlanguage self) with
             | Some p => p
             | None => ooline_blank
             end in
      let translators_comment :=
        match languages theoo !! "x-comment" with
        | Some p => p
        | None => ooline_blank
        end in
      let key := makekey (getkey part1) (long_keys self) in
      let unitlist :=
        fold_left
          (fun unitlist k =>
             match maketargetunit part1 part2 translators_comment key k with
             | Some unit => unitlist ++ [unit]
             | None => unitlist
             end)
          subkeys [] in
      ret unitlist
  end.

(** [parse.urlencode] of the standard library, on a dict given as its
    items in insertion order. *)
Variable urlencode : list (string * string) -> string.

(** The loop of [convertstore]: every unit of every record is added to the
    target file, in order. *)
Fixpoint convertunits (self : oo2po) (units : list oounit)
    (thetargetfile : pofile) : M pofile :=
  match units with
  | [] => ret thetargetfile
  | theoo :: rest =>
      unitlist <- convertelement self theoo ;;
      convertunits self rest
        (fold_left (fun f unit => f ++ [AddUnit unit]) unitlist thetargetfile)
  end.

(** The header calls of [convertstore], before the loop. *)
Definition targetheader (self : oo2po) (theoofile : oofile) : pofile :=
  let bug_url :=
    "http://qa.openoffice.org/issues/enter_bug.cgi?" +:+
    urlencode
      [("subcomponent", "ui");
       ("comment", "");
       ("short_desc",
        "Localization issue in file: " +:+ oofile_filename theoofile);
       ("component", "l10n");
       ("form_name", "enter_issue")] in
  [InitHeaders "~" "location" bug_url;
   HeaderAddnote ("extracted from " +:+ oofile_filename theoofile) "developer";
   SetSourceLanguage (sourcelanguage self);
   SetTargetLanguage (targetlanguage self)].

(** The default of [convertstore]'s [duplicatestyle] parameter. *)
Definition convertstore_duplicatestyle : string := "msgctxt".

(** [oo2po.convertstore]; [duplicatestyle] is [None] when the caller
    leaves the argument out. *)
Definition convertstore (self : oo2po) (theoofile : oofile)
    (duplicatestyle : option string) : M pofile :=
  let duplicatestyle := default convertstore_duplicatestyle duplicatestyle in
  let thetargetfile := targetheader self theoofile in
  thetargetfile <- convertunits self (oofile_units theoofile) thetargetfile ;;
  ret (thetargetfile ++ [RemoveDuplicates duplicatestyle]).

(** [verifyoptions]. *)
Definition verifyoptions (options : cli_options) : M unit :=
  if negb (pot options) && negb (Py.truthy_opt (opt_targetlanguage options))
  then raise (ValueError
    "You must specify the target language unless generating POT files (-P)")
  else ret tt.

(** [oo.oofile.parse] on the bytes read: the records and the language
    tags found, in order of first appearance. *)
Variable oofile_parse : string -> list oounit * list string.

(** The truth value of an [oo.oofile] object. *)
Variable oofile_bool : oofile -> bool.

(** [po.pofile.isempty]. *)
Variable pofile_isempty : pofile -> bool.

(** The default of [convertoo]'s [duplicatestyle] parameter. *)
Definition convertoo_duplicatestyle : string := "msgid_comment".

(** The default of [convertoo]'s [multifilestyle] parameter. *)
Definition convertoo_multifilestyle : string := "single".

(** The inference of the source language in [convertoo], run when
    [not sourcelanguage]:
    [targetlanguage or (inputstore and inputstore.languages[0]) or ""],
    then ["01" if testlangtype.isdigit() else "en-US"]. *)
Definition infer_sourcelanguage (inputstore : oofile)
    (targetlanguage : option string) : M string :=
  testlangtype <-
    (if Py.truthy_opt targetlanguage then ret (default "" targetlanguage)
     else if oofile_bool inputstore then
       language0 <- index0 (oofile_languages inputstore) ;;
       ret (if Py.truthy language0 then language0 else "")
     else ret "") ;;
  ret (if Py.isdigit testlangtype then "01" else "en-US").

(** [convertoo].  The optional arguments are [None] when the caller leaves
    them out ([sourcelanguage] and [targetlanguage] then are Python's
    [None]).  [templates] is not read.  The result is the returned integer
    and what was serialized to [outputfile], if anything. *)
Definition convertoo (inputfile : infile) (pot : bool)
    (sourcelanguage targetlanguage : option string)
    (duplicatestyle multifilestyle : option string)
    : M (Z * option pofile) :=
  let duplicatestyle := default convertoo_duplicatestyle duplicatestyle in
  let multifilestyle := default convertoo_multifilestyle multifilestyle in
  let inputfilename :=
    match infile_filename inputfile with
    | Some f => f
    | None => "(input file name not known)"
    end in
  let parsed := oofile_parse (infile_read inputfile) in
  let inputstore :=
    {| oofile_filename := inputfilename;
       oofile_units := parsed.1;
       oofile_languages := parsed.2 |} in
  sourcelanguage <-
    (if negb (Py.truthy_opt sourcelanguage)
     then infer_sourcelanguage inputstore targetlanguage
     else ret (default "" sourcelanguage)) ;;
  _ <- (if negb (bool_decide (sourcelanguage ∈ oofile_languages inputstore))
        then logger_warning
               "sourcelanguage '%s' not found in inputfile '%s' (contains %s)"
               [sourcelanguage; inputfilename;
                Py.join ", " (oofile_languages inputstore)]
        else ret tt) ;;
  _ <- (match targetlanguage with
        | Some t =>
            if Py.truthy t
               && negb (bool_decide (t ∈ oofile_languages inputstore))
            then logger_warning
                   "targetlanguage '%s' not found in inputfile '%s' (contains %s)"
                   [t; inputfilename;
                    Py.join ", " (oofile_languages inputstore)]
            else ret tt
        | None => ret tt
        end) ;;
  let convertor :=
    {| sourcelanguage := sourcelanguage;
       targetlanguage := targetlanguage;
       blankmsgstr := pot;
       long_keys := negb (String.eqb multifilestyle "single") |} in
  outputstore <- convertstore convertor inputstore (Some duplicatestyle) ;;
  if pofile_isempty outputstore then ret (0%Z, None)
  else ret (1%Z, Some outputstore).

End Converter.

Arguments maketargetunit part1 part2 translators_comment key k : simpl never.
Arguments bind {A B} m k : simpl never.

(** The projections [convertelement] binds to [part2] and
    [translators_comment]. *)
Definition target_projection (self : oo2po) (theoo : oounit) : ooline :=
  if blankmsgstr self then ooline_blank
  else default ooline_blank (dict_get (languages theoo) (targetlanguage self)).

Definition comment_projection (theoo : oounit) : ooline :=
  default ooline_blank (languages theoo !! "x-comment").

(** The location reference of a subfield. *)
Definition location_of (key : string) (k : subkey) : string :=
  key +:+ "." +:+ subkey_name k.

(** The error record logged for a record without the source language. *)
Definition not_found_record (line0 : ooline) (lang : string) : logrecord :=
  LogRecord ERROR "%s language not found: %s"
    [Py.join "/" (getkey line0); lang].

(** A copy of a store with other records. *)
Definition with_units (f : oofile) (units : list oounit) : oofile :=
  {| oofile_filename := oofile_filename f;
     oofile_units := units;
     oofile_languages := oofile_languages f |}.

(** The units a record contributes: those [convertelement] returns, none
    when it raises. *)
Definition units_of (makekey : list string -> bool -> string) (self : oo2po)
    (theoo : oounit) : list pounit :=
  match outcome (convertelement makekey self theoo) with
  | inr unitlist => unitlist
  | inl _ => []
  end.

(** A record as the parser builds it has at least one line. *)
Definition has_line (theoo : oounit) : Prop := lines theoo <> [].

(** The unit [maketargetunit] builds for a subfield with source text, in
    one piece. *)
Definition built_unit (part1 part2 comment : ooline) (key : string)
    (k : subkey) : pounit :=
  {| source := getattr part1 k;
     target := getattr part2 k;
     encoding := "UTF-8";
     locations := [location_of key k];
     notes := if Py.truthy (Py.strip (getattr comment k))
              then [(getattr comment k, "developer")] else [] |}.

(** A target language counts as unset when it is [None] or the empty
    string, the two values Python's [not] accepts. *)
Definition unset (o : option string) : Prop := o = None \/ o = Some "".

(** ** Sample data

    A record with key (a, 1, x) seen in en-US and fr, with stand-ins for the
    functions of [translate.storage] and [urllib]. *)

Definition sample_makekey (ookey : list string) (long_keys : bool) : string :=
  if long_keys then Py.join "#" ookey else Py.join "#" (drop 1 ookey).

Definition sample_urlencode (items : list (string * string)) : string :=
  Py.join "&" (map (fun kv => kv.1 +:+ "=" +:+ kv.2) items).

Definition line_en : ooline :=
  {| getkey := ["a"; "1"; "x"]; text := "Hello"; quickhelptext := ""; title := "" |}.

Definition line_fr : ooline :=
  {| getkey := ["a"; "1"; "x"]; text := "Bonjour"; quickhelptext := ""; title := "" |}.

Definition line_full_en : ooline :=
  {| getkey := ["a"; "1"; "x"]; text := "Open"; quickhelptext := "Opens a file";
     title := "File" |}.

Definition line_full_fr : ooline :=
  {| getkey := ["a"; "1"; "x"]; text := "Ouvrir";
     quickhelptext := "Ouvre un fichier"; title := "Fichier" |}.

Definition line_empty_en : ooline :=
  {| getkey := ["a"; "1"; "x"]; text := ""; quickhelptext := ""; title := "" |}.

Definition line_comment : ooline :=
  {| getkey := ["a"; "1"; "x"]; text := "  greeting  "; quickhelptext := "   ";
     title := "" |}.

Definition record_en_fr : oounit :=
  {| languages := <["en-US" := line_en]> (<["fr" := line_fr]> ∅);
     lines := [line_en; line_fr] |}.

Definition record_en : oounit :=
  {| languages := <["en-US" := line_en]> ∅; lines := [line_en] |}.

Definition record_fr : oounit :=
  {| languages := <["fr" := line_fr]> ∅; lines := [line_fr] |}.

Definition record_full : oounit :=
  {| languages :=
       <["en-US" := line_full_en]>
         (<["fr" := line_full_fr]> (<["x-comment" := line_comment]> ∅));
     lines := [line_full_en; line_full_fr; line_comment] |}.

Definition record_empty_en : oounit :=
  {| languages := <["en-US" := line_empty_en]> (<["fr" := line_fr]> ∅);
     lines := [line_empty_en; line_fr] |}.

Definition converter_en_fr : oo2po :=
  {| sourcelanguage := "en-US"; targetlanguage := Some "fr";
     blankmsgstr := false; long_keys := false |}.

Definition converter_pot : oo2po :=
  {| sourcelanguage := "en-US"; targetlanguage := Some "fr";
     blankmsgstr := true; long_keys := false |}.

Definition store_sample : oofile :=
  {| oofile_filename := "a.sdf";
     oofile_units := [record_en_fr; record_fr; record_full];
     oofile_languages := ["en-US"; "fr"; "x-comment"] |}.

(** Stand-ins for the parser, which here finds the records of
    [store_sample] in any input, and for [po.pofile.isempty]. *)
Definition sample_parse (src : string) : list oounit * list string :=
  (oofile_units store_sample, oofile_languages store_sample).

Definition sample_isempty (f : pofile) : bool :=
  match added_units f with
  | [] => true
  | _ :: _ => false
  end.

Definition sample_infile : infile :=
  {| infile_filename := Some "a.sdf"; infile_read := "" |}.

(** A parser result with no record and no language, as for an empty input,
    and the truth value Python gives an object whose class defines neither
    [__bool__] nor [__len__]. *)
Definition parse_nothing (src : string) : list oounit * list string := ([], []).

Definition object_bool (f : oofile) : bool := true.

(** ** Names for parts of [convertstore] and [convertoo] *)

(** A record on which [convertelement] indexes an empty [lines]: it has
    neither the source language nor a line. *)
Definition lineless (self : oo2po) (theoo : oounit) : Prop :=
  languages theoo !! sourcelanguage self = None /\ lines theoo = [].

(** The input file name [convertoo] uses. *)
Definition inputfilename_of (inputfile : infile) : string :=
  match infile_filename inputfile with
  | Some f => f
  | None => "(input file name not known)"
  end.

(** The store [convertoo] converts: the parsed content under that name. *)
Definition inputstore_of (oofile_parse : string -> list oounit * list string)
    (inputfile : infile) : oofile :=
  {| oofile_filename := inputfilename_of inputfile;
     oofile_units := (oofile_parse (infile_read inputfile)).1;
     oofile_languages := (oofile_parse (infile_read inputfile)).2 |}.

(** The converter [convertoo] constructs once the source language is known. *)
Definition convertor_of (sourcelanguage : string) (targetlanguage : option string)
    (pot : bool) (multifilestyle : option string) : oo2po :=
  {| sourcelanguage := sourcelanguage;
     targetlanguage := targetlanguage;
     blankmsgstr := pot;
     long_keys :=
       negb (String.eqb (default convertoo_multifilestyle multifilestyle) "single") |}.



(** The source languages a catalog was declared with. *)
Definition declared_sources (f : pofile) : list string :=
  omap (fun c => match c with SetSourceLanguage l => Some l | _ => None end) f.

(** More sample data: a record without lines, and a store in which no
    record has en-US. *)
Definition record_lineless : oounit := {| languages := ∅; lines := [] |}.

Definition store_lineless : oofile :=
  {| oofile_filename := "a.sdf";
     oofile_units := [record_fr; record_lineless; record_en_fr];
     oofile_languages := ["fr"] |}.

Definition store_fr_only : oofile :=
  {| oofile_filename := "a.sdf";
     oofile_units := [record_fr; record_fr];
     oofile_languages := ["fr"] |}.

Definition store_en : oofile :=
  {| oofile_filename := "a.sdf";
     oofile_units := [record_en_fr; record_full];
     oofile_languages := ["en-US"; "fr"; "x-comment"] |}.

(** ** Strings and the monad *)

Section Basics.

Lemma truthy_true (s : string) : Py.truthy s = true <-> s <> "".
Proof. destruct s; simpl; split; congruence. Qed.

Lemma truthy_false (s : string) : Py.truthy s = false <-> s = "".
Proof. destruct s; simpl; split; congruence. Qed.

Lemma truthy_opt_false (o : option string) :
  Py.truthy_opt o = false <-> unset o.
Proof.
  unfold unset. destruct o as [s|]; simpl.
  - rewrite truthy_false. split; [intros ->; now right | intros [|]; congruence].
  - split; [now left | reflexivity].
Qed.

Lemma app_inv_prefix (p a b : string) : p +:+ a = p +:+ b -> a = b.
Proof. induction p as [|c p IH]; simpl; [easy | intros [= H]; auto]. Qed.

Lemma subkey_name_inj (k k' : subkey) : subkey_name k = subkey_name k' -> k = k'.
Proof. destruct k, k'; simpl; congruence. Qed.

Lemma location_of_inj (key : string) (k k' : subkey) :
  location_of key k = location_of key k' -> k = k'.
Proof.
  unfold location_of. intros H.
  apply app_inv_prefix in H. apply (app_inv_prefix ".") in H.
  now apply subkey_name_inj.
Qed.

Lemma bind_ret_l {A B : Type} (a : A) (k : A -> M B) : bind (ret a) k = k a.
Proof. unfold bind, ret. destruct (k a) as [l r]. reflexivity. Qed.

Lemma bind_value {A B : Type} (l : list logrecord) (a : A) (k : A -> M B) :
  bind (l, inr a) k = (l ++ logs (k a), outcome (k a)).
Proof. unfold bind, logs, outcome. destruct (k a). reflexivity. Qed.

Lemma bind_raise {A B : Type} (l : list logrecord) (e : exn) (k : A -> M B) :
  bind (l, inl e) k = (l, inl e).
Proof. reflexivity. Qed.

End Basics.

(** ** One subfield: [maketargetunit] *)

Section UnitFactory.

Variable makekey : list string -> bool -> string.

(** The unit built for a subfield whose source text is not empty. *)
Lemma maketargetunit_Some (part1 part2 comment : ooline) (key : string)
    (k : subkey) (u : pounit) :
  maketargetunit part1 part2 comment key k = Some u <->
  getattr part1 k <> "" /\
  u = {| source := getattr part1 k;
         target := getattr part2 k;
         encoding := "UTF-8";
         locations := [location_of key k];
         notes := if Py.truthy (Py.strip (getattr comment k))
                  then [(getattr comment k, "developer")] else [] |}.
Proof.
  unfold maketargetunit, location_of.
  destruct (Py.truthy (getattr part1 k)) eqn:Ht; simpl.
  - apply truthy_true in Ht.
    destruct (Py.truthy (Py.strip (getattr comment k))); simpl;
      (split; [intros [= <-]; split; [assumption | reflexivity]
              | intros [_ ->]; reflexivity]).
  - apply truthy_false in Ht. split; [discriminate | intros [H _]; contradiction].
Qed.

Lemma maketargetunit_None (part1 part2 comment : ooline) (key : string)
    (k : subkey) :
  maketargetunit part1 part2 comment key k = None <-> getattr part1 k = "".
Proof.
  unfold maketargetunit.
  destruct (Py.truthy (getattr part1 k)) eqn:Ht; simpl.
  - apply truthy_true in Ht. split; [discriminate | contradiction].
  - apply truthy_false in Ht. split; auto.
Qed.

(** The loop of [convertelement] collects the units of the three
    subfields, in order. *)
Lemma convertelement_found (self : oo2po) (theoo : oounit) (part1 : ooline) :
  languages theoo !! sourcelanguage self = Some part1 ->
  convertelement makekey self theoo =
  ret (omap (maketargetunit part1 (target_projection self theoo)
               (comment_projection theoo)
               (makekey (getkey part1) (long_keys self)))
         subkeys).
Proof.
  intros H. unfold convertelement. rewrite H.
  unfold target_projection, comment_projection, default, subkeys, ret.
  destruct (blankmsgstr self), (dict_get (languages theoo) (targetlanguage self)),
    (languages theoo !! "x-comment"); simpl;
    repeat match goal with
           | |- context [maketargetunit ?a ?b ?c ?d ?e] =>
               destruct (maketargetunit a b c d e)
           end; reflexivity.
Qed.

Lemma convertelement_missing (self : oo2po) (theoo : oounit)
    (line0 : ooline) (rest : list ooline) :
  languages theoo !! sourcelanguage self = None ->
  lines theoo = line0 :: rest ->
  convertelement makekey self theoo =
  ([not_found_record line0 (sourcelanguage self)], inr []).
Proof.
  intros H Hl. unfold convertelement. rewrite H, Hl. reflexivity.
Qed.

Lemma convertelement_missing_nolines (self : oo2po) (theoo : oounit) :
  languages theoo !! sourcelanguage self = None ->
  lines theoo = [] ->
  convertelement makekey self theoo = raise IndexError.
Proof.
  intros H Hl. unfold convertelement. rewrite H, Hl. reflexivity.
Qed.

End UnitFactory.


(** ** The whole store: [convertstore] *)

Section CatalogAssembler.

Variable makekey : list string -> bool -> string.
Variable urlencode : list (string * string) -> string.

Lemma fold_addunit (unitlist : list pounit) (f : pofile) :
  fold_left (fun f unit => f ++ [AddUnit unit]) unitlist f =
  f ++ map AddUnit unitlist.
Proof.
  revert f. induction unitlist as [|u l IH]; intros f; simpl.
  - now rewrite app_nil_r.
  - rewrite IH, <- app_assoc. reflexivity.
Qed.

Lemma added_units_app (f g : pofile) :
  added_units (f ++ g) = added_units f ++ added_units g.
Proof. unfold added_units. apply omap_app. Qed.

Lemma added_units_map (unitlist : list pounit) :
  added_units (map AddUnit unitlist) = unitlist.
Proof. induction unitlist; simpl; [reflexivity | f_equal; assumption]. Qed.

Lemma duplicate_runs_app (f g : pofile) :
  duplicate_runs (f ++ g) = duplicate_runs f ++ duplicate_runs g.
Proof. unfold duplicate_runs. apply omap_app. Qed.

Lemma duplicate_runs_map (unitlist : list pounit) :
  duplicate_runs (map AddUnit unitlist) = [].
Proof. induction unitlist; simpl; [reflexivity | assumption]. Qed.

(** A record with a line never makes [convertelement] raise. *)
Lemma convertelement_returns (self : oo2po) (theoo : oounit) :
  has_line theoo ->
  convertelement makekey self theoo =
  (logs (convertelement makekey self theoo), inr (units_of makekey self theoo)).
Proof.
  intros Hl. unfold units_of.
  destruct (languages theoo !! sourcelanguage self) as [part1|] eqn:Hs.
  - rewrite (convertelement_found makekey self theoo part1 Hs). reflexivity.
  - destruct (lines theoo) as [|line0 rest] eqn:E; [now elim Hl|].
    rewrite (convertelement_missing makekey self theoo line0 rest Hs E).
    reflexivity.
Qed.

(** When the loop returns, the catalog is the one it started from followed
    by every record's units, in order. *)
Lemma convertunits_inr (self : oo2po) (units : list oounit) (f out : pofile) :
  outcome (convertunits makekey self units f) = inr out ->
  out = f ++ map AddUnit (flat_map (units_of makekey self) units).
Proof.
  revert f. induction units as [|theoo rest IH]; intros f; simpl.
  - intros [= <-]. now rewrite app_nil_r.
  - unfold units_of at 1.
    destruct (convertelement makekey self theoo) as [l [e|unitlist]]; simpl.
    + discriminate.
    + rewrite bind_value. simpl. intros H. apply IH in H.
      rewrite H, fold_addunit, map_app, app_assoc. reflexivity.
Qed.

(** On records that all have a line the loop returns, with the logs of the
    records in order. *)
Lemma convertunits_returns (self : oo2po) (units : list oounit) (f : pofile) :
  Forall has_line units ->
  convertunits makekey self units f =
  (flat_map (fun theoo => logs (convertelement makekey self theoo)) units,
   inr (f ++ map AddUnit (flat_map (units_of makekey self) units))).
Proof.
  intros Hwf. revert f. induction Hwf as [|theoo rest Hl _ IH]; intros f; simpl.
  - now rewrite app_nil_r.
  - pose proof (convertelement_returns self theoo Hl) as E.
    unfold units_of in *.
    destruct (convertelement makekey self theoo) as [l [e|unitlist]];
      simpl in *; [discriminate|].
    rewrite bind_value, IH. simpl.
    rewrite fold_addunit, map_app, app_assoc. reflexivity.
Qed.

Lemma convertstore_returns (self : oo2po) (theoofile : oofile)
    (duplicatestyle : option string) :
  Forall has_line (oofile_units theoofile) ->
  convertstore makekey urlencode self theoofile duplicatestyle =
  (flat_map (fun theoo => logs (convertelement makekey self theoo))
     (oofile_units theoofile),
   inr (targetheader urlencode self theoofile
        ++ map AddUnit (flat_map (units_of makekey self) (oofile_units theoofile))
        ++ [RemoveDuplicates (default convertstore_duplicatestyle duplicatestyle)])).
Proof.
  intros Hwf. unfold convertstore.
  rewrite (convertunits_returns self _ _ Hwf), bind_value. simpl.
  rewrite app_nil_r. reflexivity.
Qed.

Lemma convertstore_inr (self : oo2po) (theoofile : oofile)
    (duplicatestyle : option string) (out : pofile) :
  outcome (convertstore makekey urlencode self theoofile duplicatestyle) = inr out ->
  out = targetheader urlencode self theoofile
        ++ map AddUnit (flat_map (units_of makekey self) (oofile_units theoofile))
        ++ [RemoveDuplicates (default convertstore_duplicatestyle duplicatestyle)].
Proof.
  unfold convertstore.
  destruct (convertunits makekey self (oofile_units theoofile)
              (targetheader urlencode self theoofile)) as [l [e|f]] eqn:E.
  - discriminate.
  - rewrite bind_value. simpl. intros [= <-].
    assert (H : outcome (convertunits makekey self (oofile_units theoofile)
                (targetheader urlencode self theoofile)) = inr f)
      by now rewrite E.
    apply convertunits_inr in H. rewrite H, <- app_assoc. reflexivity.
Qed.

End CatalogAssembler.

(** ** The units of one record *)

Section RecordUnits.

Variable makekey : list string -> bool -> string.

Lemma maketargetunit_eq (part1 part2 comment : ooline) (key : string) (k : subkey) :
  maketargetunit part1 part2 comment key k =
  if decide (getattr part1 k <> "")
  then Some (built_unit part1 part2 comment key k) else None.
Proof.
  destruct (decide (getattr part1 k <> "")) as [Hne|He].
  - apply maketargetunit_Some. split; [assumption | reflexivity].
  - apply maketargetunit_None. destruct (decide (getattr part1 k = "")); tauto.
Qed.

Lemma omap_filter_map {A B : Type} (P : A -> Prop) `{forall a, Decision (P a)}
    (f : A -> option B) (g : A -> B) (l : list A) :
  (forall a, f a = if decide (P a) then Some (g a) else None) ->
  omap f l = map g (filter P l).
Proof.
  intros Hf. induction l as [|a l IH]; [reflexivity|].
  cbn [omap list_omap]. rewrite Hf.
  destruct (decide (P a)) as [Hp|Hn].
  - rewrite (filter_cons_True P a l Hp). simpl. f_equal. exact IH.
  - rewrite (filter_cons_False P a l Hn). exact IH.
Qed.

(** A record with the source language yields, without logging, the units
    of its subfields that have source text, in subfield order. *)
Lemma convertelement_units (self : oo2po) (theoo : oounit) (part1 : ooline) :
  languages theoo !! sourcelanguage self = Some part1 ->
  convertelement makekey self theoo =
  ret (map (built_unit part1 (target_projection self theoo)
              (comment_projection theoo)
              (makekey (getkey part1) (long_keys self)))
         (filter (fun k => getattr part1 k <> "") subkeys)).
Proof.
  intros H. rewrite (convertelement_found makekey self theoo part1 H).
  f_equal. apply omap_filter_map. intros k. apply maketargetunit_eq.
Qed.

Lemma units_of_found (self : oo2po) (theoo : oounit) (part1 : ooline) :
  languages theoo !! sourcelanguage self = Some part1 ->
  units_of makekey self theoo =
  map (built_unit part1 (target_projection self theoo)
         (comment_projection theoo)
         (makekey (getkey part1) (long_keys self)))
    (filter (fun k => getattr part1 k <> "") subkeys).
Proof.
  intros H. unfold units_of. now rewrite (convertelement_units self theoo part1 H).
Qed.

Lemma units_of_missing (self : oo2po) (theoo : oounit) :
  languages theoo !! sourcelanguage self = None ->
  units_of makekey self theoo = [].
Proof.
  intros H. unfold units_of.
  destruct (lines theoo) as [|line0 rest] eqn:E.
  - now rewrite (convertelement_missing_nolines makekey self theoo H E).
  - now rewrite (convertelement_missing makekey self theoo line0 rest H E).
Qed.

Lemma developer_notes_built (part1 part2 comment : ooline) (key : string)
    (k : subkey) :
  developer_notes (built_unit part1 part2 comment key k) =
  if Py.truthy (Py.strip (getattr comment k)) then [getattr comment k] else [].
Proof.
  unfold developer_notes, built_unit. simpl.
  destruct (Py.truthy (Py.strip (getattr comment k))); reflexivity.
Qed.

Lemma getattr_blank (k : subkey) : getattr ooline_blank k = "".
Proof. destruct k; reflexivity. Qed.

End RecordUnits.

(** ** Properties of the record-to-unit transformation *)

(** C1. A unit is produced for a subfield only if the source projection's
    subfield is not empty.  For a record whose source projection is [part1]:
    whatever the target and comment projections and the key,
    [maketargetunit] returns no unit exactly when the source subfield is
    empty; the record's units contain one located at a subfield exactly when
    that subfield of the source is not empty; and a source projection with
    all three subfields empty yields no unit at all. *)
Theorem unit_only_for_nonempty_source (makekey : list string -> bool -> string)
    (self : oo2po) (theoo : oounit) (part1 : ooline) :
  languages theoo !! sourcelanguage self = Some part1 ->
  exists unitlist : list pounit,
    convertelement makekey self theoo = ret unitlist /\
    (forall (part2 comment : ooline) (key : string) (k : subkey),
        maketargetunit part1 part2 comment key k = None <->
        getattr part1 k = "") /\
    (forall k : subkey,
        (exists u, u ∈ unitlist /\
                   locations u =
                   [location_of (makekey (getkey part1) (long_keys self)) k]) <->
        getattr part1 k <> "") /\
    (text part1 = "" -> quickhelptext part1 = "" -> title part1 = "" ->
     unitlist = []).
Proof.
  intros H. eexists. split; [apply (convertelement_units makekey self theoo part1 H)|].
  split; [intros; apply maketargetunit_None|]. split.
  - intros k. split.
    + intros (u & Hin & Hloc).
      apply list_elem_of_fmap in Hin as (k' & -> & Hk').
      apply list_elem_of_filter in Hk' as [Hne _].
      simpl in Hloc. injection Hloc as Hloc.
      apply location_of_inj in Hloc. now subst k'.
    + intros Hne. eexists. split.
      * apply list_elem_of_fmap. exists k. split; [reflexivity|].
        apply list_elem_of_filter. split; [assumption|].
        unfold subkeys. destruct k; set_solver.
      * reflexivity.
  - intros Ht Hq Hi. unfold subkeys.
    rewrite !filter_cons_False, filter_nil; simpl; try reflexivity; tauto.
Qed.

Lemma unit_only_for_nonempty_source_witness :
  exists unitlist : list pounit,
    convertelement sample_makekey converter_en_fr record_empty_en = ret unitlist /\
    (forall (part2 comment : ooline) (key : string) (k : subkey),
        maketargetunit line_empty_en part2 comment key k = None <->
        getattr line_empty_en k = "") /\
    (forall k : subkey,
        (exists u, u ∈ unitlist /\
                   locations u =
                   [location_of (sample_makekey (getkey line_empty_en)
                                   (long_keys converter_en_fr)) k]) <->
        getattr line_empty_en k <> "") /\
    (text line_empty_en = "" -> quickhelptext line_empty_en = "" ->
     title line_empty_en = "" -> unitlist = []).
Proof.
  apply (unit_only_for_nonempty_source sample_makekey converter_en_fr
           record_empty_en line_empty_en).
  vm_compute. reflexivity.
Defined.

(** C5. A record that has the source language yields between 0 and 3
    units, in the subfield order text, quickhelptext, title, and each unit
    carries exactly one location reference: the built key, a dot, and the
    subfield name. *)
Theorem units_in_subfield_order (makekey : list string -> bool -> string)
    (self : oo2po) (theoo : oounit) (part1 : ooline) :
  languages theoo !! sourcelanguage self = Some part1 ->
  exists unitlist : list pounit,
    convertelement makekey self theoo = ret unitlist /\
    length unitlist <= 3 /\
    map locations unitlist =
    map (fun k => [makekey (getkey part1) (long_keys self)
                   +:+ "." +:+ subkey_name k])
      (filter (fun k => getattr part1 k <> "") [Text; Quickhelptext; Title]).
Proof.
  intros H. eexists. split; [apply (convertelement_units makekey self theoo part1 H)|].
  split.
  - rewrite length_map. apply (length_filter _ subkeys).
  - rewrite map_map. reflexivity.
Qed.

Lemma units_in_subfield_order_witness :
  exists unitlist : list pounit,
    convertelement sample_makekey converter_en_fr record_full = ret unitlist /\
    length unitlist <= 3 /\
    map locations unitlist =
    map (fun k => [sample_makekey (getkey line_full_en) (long_keys converter_en_fr)
                   +:+ "." +:+ subkey_name k])
      (filter (fun k => getattr line_full_en k <> "") [Text; Quickhelptext; Title]).
Proof.
  apply (units_in_subfield_order sample_makekey converter_en_fr record_full
           line_full_en).
  vm_compute. reflexivity.
Defined.

(** C6. Every unit a record emits belongs to one subfield and carries a
    developer note exactly when that subfield of the record's "x-comment"
    projection is not empty after trimming whitespace; a record without an
    "x-comment" projection behaves as one whose comment projection is all
    empty, so none of its units has a note.  The same holds for
    [maketargetunit] on any comment projection. *)
Theorem developer_note_iff_comment (makekey : list string -> bool -> string)
    (self : oo2po) (theoo : oounit) (part1 : ooline) :
  languages theoo !! sourcelanguage self = Some part1 ->
  exists unitlist : list pounit,
    convertelement makekey self theoo = ret unitlist /\
    (forall u, u ∈ unitlist ->
       exists k : subkey,
         locations u = [location_of (makekey (getkey part1) (long_keys self)) k] /\
         (developer_notes u <> [] <->
          Py.strip (getattr (default ooline_blank (languages theoo !! "x-comment")) k)
          <> "")) /\
    (languages theoo !! "x-comment" = None ->
     forall u, u ∈ unitlist -> notes u = []) /\
    (forall (part2 comment : ooline) (key : string) (k : subkey) (u : pounit),
       maketargetunit part1 part2 comment key k = Some u ->
       (developer_notes u <> [] <-> Py.strip (getattr comment k) <> "")).
Proof.
  intros H. eexists. split; [apply (convertelement_units makekey self theoo part1 H)|].
  assert (Hnote : forall p2 c key k,
             developer_notes (built_unit part1 p2 c key k) <> [] <->
             Py.strip (getattr c k) <> "").
  { intros p2 c key k. rewrite developer_notes_built, <- truthy_true.
    destruct (Py.truthy (Py.strip (getattr c k))); split; congruence. }
  split; [|split].
  - intros u Hin. apply list_elem_of_fmap in Hin as (k & -> & _).
    exists k. split; [reflexivity | apply Hnote].
  - intros Hc u Hin. apply list_elem_of_fmap in Hin as (k & -> & _).
    unfold comment_projection. rewrite Hc. simpl. now rewrite getattr_blank.
  - intros p2 c key k u Hu. apply maketargetunit_Some in Hu as [_ ->].
    apply Hnote.
Qed.

Lemma developer_note_iff_comment_witness :
  exists unitlist : list pounit,
    convertelement sample_makekey converter_en_fr record_full = ret unitlist /\
    (forall u, u ∈ unitlist ->
       exists k : subkey,
         locations u =
         [location_of (sample_makekey (getkey line_full_en)
                         (long_keys converter_en_fr)) k] /\
         (developer_notes u <> [] <->
          Py.strip (getattr (default ooline_blank
                               (languages record_full !! "x-comment")) k)
          <> "")) /\
    (languages record_full !! "x-comment" = None ->
     forall u, u ∈ unitlist -> notes u = []) /\
    (forall (part2 comment : ooline) (key : string) (k : subkey) (u : pounit),
       maketargetunit line_full_en part2 comment key k = Some u ->
       (developer_notes u <> [] <-> Py.strip (getattr comment k) <> "")).
Proof.
  apply (developer_note_iff_comment sample_makekey converter_en_fr record_full
           line_full_en).
  vm_compute. reflexivity.
Defined.

(** C10. When a developer note is attached, its text is the comment
    projection's subfield exactly as stored: trimming only decides whether
    the note is attached. *)
Theorem note_text_not_trimmed (part1 part2 comment : ooline) (key : string)
    (k : subkey) (u : pounit) :
  maketargetunit part1 part2 comment key k = Some u ->
  Py.strip (getattr comment k) <> "" ->
  notes u = [(getattr comment k, "developer")].
Proof.
  intros Hu Hs. apply maketargetunit_Some in Hu as [_ ->]. simpl.
  apply truthy_true in Hs. now rewrite Hs.
Qed.

Lemma note_text_not_trimmed_witness :
  Py.strip "  greeting  " = "greeting" /\
  notes (built_unit line_full_en line_full_fr line_comment "1#x" Text) =
  [("  greeting  ", "developer")].
Proof.
  split; [reflexivity|].
  apply (note_text_not_trimmed line_full_en line_full_fr line_comment "1#x" Text).
  - vm_compute. reflexivity.
  - vm_compute. discriminate.
Defined.

(** C3. With blank-target mode off, a record that has the source language
    but not the configured target language is converted against the
    all-empty projection: nothing is logged, and every unit emitted has a
    source that is not empty and an empty target. *)
Theorem missing_target_is_untranslated (makekey : list string -> bool -> string)
    (self : oo2po) (theoo : oounit) (part1 : ooline) :
  blankmsgstr self = false ->
  languages theoo !! sourcelanguage self = Some part1 ->
  dict_get (languages theoo) (targetlanguage self) = None ->
  exists unitlist : list pounit,
    convertelement makekey self theoo = ([], inr unitlist) /\
    unitlist =
    omap (maketargetunit part1 ooline_blank
            (default ooline_blank (languages theoo !! "x-comment"))
            (makekey (getkey part1) (long_keys self)))
      [Text; Quickhelptext; Title] /\
    (forall u, u ∈ unitlist -> source u <> "" /\ target u = "").
Proof.
  intros Hb Hs Ht.
  assert (Hp : target_projection self theoo = ooline_blank)
    by (unfold target_projection; now rewrite Hb, Ht).
  eexists. split; [apply (convertelement_found makekey self theoo part1 Hs)|].
  rewrite Hp. split; [reflexivity|].
  intros u Hin. apply list_elem_of_omap in Hin as (k & _ & Hu).
  apply maketargetunit_Some in Hu as [Hne ->]. simpl.
  split; [assumption | apply getattr_blank].
Qed.

Lemma missing_target_is_untranslated_witness :
  exists unitlist : list pounit,
    convertelement sample_makekey converter_en_fr record_en = ([], inr unitlist) /\
    unitlist =
    omap (maketargetunit line_en ooline_blank
            (default ooline_blank (languages record_en !! "x-comment"))
            (sample_makekey (getkey line_en) (long_keys converter_en_fr)))
      [Text; Quickhelptext; Title] /\
    (forall u, u ∈ unitlist -> source u <> "" /\ target u = "").
Proof.
  apply (missing_target_is_untranslated sample_makekey converter_en_fr record_en
           line_en); vm_compute; reflexivity.
Defined.

(** ** Properties of the catalog assembly *)

Lemma units_of_outcome (makekey : list string -> bool -> string) (self : oo2po)
    (theoo : oounit) (unitlist : list pounit) :
  outcome (convertelement makekey self theoo) = inr unitlist ->
  unitlist = units_of makekey self theoo.
Proof. intros H. unfold units_of. now rewrite H. Qed.

Lemma units_of_blank_target (makekey : list string -> bool -> string)
    (self : oo2po) (theoo : oounit) (u : pounit) :
  blankmsgstr self = true -> u ∈ units_of makekey self theoo -> target u = "".
Proof.
  intros Hb Hin.
  destruct (languages theoo !! sourcelanguage self) as [part1|] eqn:Hs.
  - rewrite (units_of_found makekey self theoo part1 Hs) in Hin.
    apply list_elem_of_fmap in Hin as (k & -> & _). simpl.
    unfold target_projection. rewrite Hb. apply getattr_blank.
  - rewrite (units_of_missing makekey self theoo Hs) in Hin.
    now apply elem_of_nil in Hin.
Qed.

(** C4. In blank-target mode every unit emitted has the empty string as
    its target, for every record and whatever its projections are; so has
    every unit added to the catalog of a whole store. *)
Theorem blank_target_mode (makekey : list string -> bool -> string)
    (urlencode : list (string * string) -> string) (self : oo2po) :
  blankmsgstr self = true ->
  (forall (theoo : oounit) (unitlist : list pounit),
      outcome (convertelement makekey self theoo) = inr unitlist ->
      forall u, u ∈ unitlist -> target u = "") /\
  (forall (theoofile : oofile) (duplicatestyle : option string) (out : pofile),
      outcome (convertstore makekey urlencode self theoofile duplicatestyle)
      = inr out ->
      forall u, u ∈ added_units out -> target u = "").
Proof.
  intros Hb. split.
  - intros theoo unitlist H u Hin. apply units_of_outcome in H. subst unitlist.
    now apply (units_of_blank_target makekey self theoo).
  - intros theoofile dup out H u Hin. apply convertstore_inr in H. subst out.
    rewrite !added_units_app, added_units_map in Hin. simpl in Hin.
    rewrite app_nil_r in Hin.
    apply list_elem_of_In, in_flat_map in Hin as (theoo & _ & Hin).
    apply list_elem_of_In in Hin.
    now apply (units_of_blank_target makekey self theoo).
Qed.

Lemma blank_target_mode_witness :
  blankmsgstr converter_pot = true /\
  outcome (convertelement sample_makekey converter_pot record_full) =
  inr (units_of sample_makekey converter_pot record_full) /\
  length (units_of sample_makekey converter_pot record_full) = 3 /\
  forall u, u ∈ units_of sample_makekey converter_pot record_full -> target u = "".
Proof.
  split; [reflexivity|]. split; [vm_compute; reflexivity|].
  split; [vm_compute; reflexivity|].
  exact (proj1 (blank_target_mode sample_makekey sample_urlencode converter_pot
                  eq_refl)
           record_full (units_of sample_makekey converter_pot record_full)
           eq_refl).
Defined.

(** C2. A record (with at least one line, as every record of a parsed
    store has) whose languages do not contain the configured source language
    converts to the empty list of units and logs one error that carries the
    record's key, joined with "/", and the missing language.  Converting a
    store that contains such a record raises nothing: the catalog is the one
    obtained without that record, and the records before and after it are
    converted and logged as usual. *)
Theorem missing_source_is_local (makekey : list string -> bool -> string)
    (urlencode : list (string * string) -> string) (self : oo2po)
    (theoofile : oofile) (pre post : list oounit) (theoo : oounit)
    (duplicatestyle : option string) :
  oofile_units theoofile = pre ++ theoo :: post ->
  Forall has_line (oofile_units theoofile) ->
  languages theoo !! sourcelanguage self = None ->
  exists (line0 : ooline) (rest : list ooline) (out : pofile),
    lines theoo = line0 :: rest /\
    convertelement makekey self theoo =
    ([LogRecord ERROR "%s language not found: %s"
        [Py.join "/" (getkey line0); sourcelanguage self]],
     inr []) /\
    outcome (convertstore makekey urlencode self theoofile duplicatestyle)
    = inr out /\
    outcome (convertstore makekey urlencode self
               (with_units theoofile (pre ++ post)) duplicatestyle)
    = inr out /\
    logs (convertstore makekey urlencode self theoofile duplicatestyle) =
    logs (convertstore makekey urlencode self (with_units theoofile pre)
            duplicatestyle)
    ++ LogRecord ERROR "%s language not found: %s"
         [Py.join "/" (getkey line0); sourcelanguage self]
    :: logs (convertstore makekey urlencode self (with_units theoofile post)
               duplicatestyle).
Proof.
  intros Hu Hwf Hs.
  assert (Hwf' := Hwf). rewrite Hu in Hwf'.
  apply Forall_app in Hwf' as [Hpre Hpost].
  apply Forall_cons in Hpost as [Hl Hpost].
  destruct (lines theoo) as [|line0 rest] eqn:El; [now elim Hl|].
  pose proof (convertelement_missing makekey self theoo line0 rest Hs El) as Hc.
  exists line0, rest. eexists. split; [reflexivity|]. split; [exact Hc|].
  rewrite (convertstore_returns makekey urlencode self theoofile _ Hwf).
  rewrite (convertstore_returns makekey urlencode self
             (with_units theoofile (pre ++ post)) duplicatestyle)
    by (apply Forall_app; split; assumption).
  rewrite (convertstore_returns makekey urlencode self
             (with_units theoofile pre) duplicatestyle) by assumption.
  rewrite (convertstore_returns makekey urlencode self
             (with_units theoofile post) duplicatestyle) by assumption.
  unfold outcome, logs. cbn [fst snd with_units oofile_units].
  rewrite Hu, !flat_map_app. cbn [flat_map].
  rewrite (units_of_missing makekey self theoo Hs), Hc.
  split; [reflexivity|]. split; reflexivity.
Qed.

Lemma missing_source_is_local_witness :
  exists (line0 : ooline) (rest : list ooline) (out : pofile),
    lines record_fr = line0 :: rest /\
    convertelement sample_makekey converter_en_fr record_fr =
    ([LogRecord ERROR "%s language not found: %s"
        [Py.join "/" (getkey line0); sourcelanguage converter_en_fr]],
     inr []) /\
    outcome (convertstore sample_makekey sample_urlencode converter_en_fr
               store_sample None)
    = inr out /\
    outcome (convertstore sample_makekey sample_urlencode converter_en_fr
               (with_units store_sample ([record_en_fr] ++ [record_full])) None)
    = inr out /\
    logs (convertstore sample_makekey sample_urlencode converter_en_fr
            store_sample None) =
    logs (convertstore sample_makekey sample_urlencode converter_en_fr
            (with_units store_sample [record_en_fr]) None)
    ++ LogRecord ERROR "%s language not found: %s"
         [Py.join "/" (getkey line0); sourcelanguage converter_en_fr]
    :: logs (convertstore sample_makekey sample_urlencode converter_en_fr
               (with_units store_sample [record_full]) None).
Proof.
  apply (missing_source_is_local sample_makekey sample_urlencode converter_en_fr
           store_sample [record_en_fr] [record_full] record_fr None).
  - reflexivity.
  - repeat constructor; discriminate.
  - vm_compute. reflexivity.
Defined.

Lemma bind_inr {A B : Type} (m : M A) (k : A -> M B) (b : B) :
  outcome (bind m k) = inr b ->
  exists a, outcome m = inr a /\ outcome (k a) = inr b.
Proof.
  destruct m as [l [e|a]].
  - rewrite bind_raise. discriminate.
  - rewrite bind_value. simpl. eauto.
Qed.

(** Called without a duplicate style, [convertstore] resolves duplicates
    once, with the "msgctxt" style. *)
Lemma convertstore_default_duplicatestyle
    (makekey : list string -> bool -> string)
    (urlencode : list (string * string) -> string) (self : oo2po)
    (theoofile : oofile) (out : pofile) :
  outcome (convertstore makekey urlencode self theoofile None) = inr out ->
  duplicate_runs out = ["msgctxt"].
Proof.
  intros H. apply convertstore_inr in H. subst out.
  rewrite !duplicate_runs_app, duplicate_runs_map. reflexivity.
Qed.

(** C7, on the code.  Called without a duplicate style, [convertoo] hands
    its own default to [convertstore]: every catalog it serializes had its
    duplicates resolved once, with the "msgid_comment" style, not with
    "msgctxt". *)
Theorem convertoo_default_duplicatestyle
    (makekey : list string -> bool -> string)
    (urlencode : list (string * string) -> string)
    (oofile_parse : string -> list oounit * list string)
    (oofile_bool : oofile -> bool) (pofile_isempty : pofile -> bool)
    (inputfile : infile) (pot : bool)
    (sourcelanguage targetlanguage multifilestyle : option string)
    (n : Z) (out : pofile) :
  outcome (convertoo makekey urlencode oofile_parse oofile_bool pofile_isempty
             inputfile pot sourcelanguage targetlanguage None multifilestyle)
  = inr (n, Some out) ->
  duplicate_runs out = ["msgid_comment"] /\ duplicate_runs out <> ["msgctxt"].
Proof.
  unfold convertoo. intros H.
  apply bind_inr in H as (src & _ & H).
  apply bind_inr in H as (? & _ & H).
  apply bind_inr in H as (? & _ & H).
  apply bind_inr in H as (o & Ho & H).
  destruct (pofile_isempty o); simpl in H; [discriminate|].
  injection H as _ <-.
  apply convertstore_inr in Ho. rewrite Ho.
  rewrite !duplicate_runs_app, duplicate_runs_map.
  split; [reflexivity | discriminate].
Qed.

Lemma convertoo_default_duplicatestyle_witness :
  exists out : pofile,
    outcome (convertoo sample_makekey sample_urlencode sample_parse object_bool
               sample_isempty sample_infile false None (Some "fr") None None)
    = inr (1%Z, Some out) /\
    duplicate_runs out = ["msgid_comment"] /\ duplicate_runs out <> ["msgctxt"].
Proof.
  eexists. split; [vm_compute; reflexivity|].
  apply (convertoo_default_duplicatestyle sample_makekey sample_urlencode
           sample_parse object_bool sample_isempty sample_infile false None
           (Some "fr") None 1%Z).
  vm_compute. reflexivity.
Defined.

(** ** Options and the source-language default *)

(** C8. [verifyoptions] raises exactly when the target language is unset
    ([None] or the empty string) and POT mode is not active, and what it
    raises is a [ValueError]; with POT mode active it returns normally
    whatever the target language is. *)
Theorem verifyoptions_raises_iff (options : cli_options) :
  ((exists e, outcome (verifyoptions options) = inl e) <->
   unset (opt_targetlanguage options) /\ pot options = false) /\
  (forall e, outcome (verifyoptions options) = inl e ->
             exists msg, e = ValueError msg) /\
  (pot options = true -> verifyoptions options = ret tt).
Proof.
  unfold verifyoptions.
  destruct (pot options); simpl.
  - split; [|split].
    + split; [intros [e H]; discriminate | intros [_ H]; discriminate].
    + intros e H. discriminate.
    + reflexivity.
  - destruct (Py.truthy_opt (opt_targetlanguage options)) eqn:Ht; simpl.
    + split; [|split].
      * split; [intros [e H]; discriminate|].
        intros [Hu _]. apply truthy_opt_false in Hu. congruence.
      * intros e H. discriminate.
      * discriminate.
    + apply truthy_opt_false in Ht. split; [|split].
      * split; [intros _; split; [assumption | reflexivity] | eauto].
      * intros e [= <-]. eauto.
      * discriminate.
Qed.

Lemma verifyoptions_raises_iff_witness :
  (exists e, outcome (verifyoptions {| pot := false; opt_targetlanguage := None |})
             = inl e) /\
  verifyoptions {| pot := true; opt_targetlanguage := None |} = ret tt /\
  verifyoptions {| pot := false; opt_targetlanguage := Some "fr" |} = ret tt.
Proof.
  split; [|split].
  - apply (proj1 (verifyoptions_raises_iff
                    {| pot := false; opt_targetlanguage := None |})).
    split; [left; reflexivity | reflexivity].
  - apply (proj2 (proj2 (verifyoptions_raises_iff
                           {| pot := true; opt_targetlanguage := None |}))).
    reflexivity.
  - reflexivity.
Defined.

(** The inference of the source language where a tag to test exists: the
    target language when it is given ... *)
Lemma infer_sourcelanguage_target (oofile_bool : oofile -> bool)
    (inputstore : oofile) (t : string) :
  t <> "" ->
  infer_sourcelanguage oofile_bool inputstore (Some t) =
  ret (if Py.isdigit t then "01" else "en-US").
Proof.
  intros Ht. apply truthy_true in Ht. unfold infer_sourcelanguage. simpl.
  rewrite Ht. now rewrite bind_ret_l.
Qed.

(** ... otherwise the first language tag of a true store ... *)
Lemma infer_sourcelanguage_first (oofile_bool : oofile -> bool)
    (inputstore : oofile) (targetlanguage : option string)
    (language0 : string) (rest : list string) :
  unset targetlanguage ->
  oofile_bool inputstore = true ->
  oofile_languages inputstore = language0 :: rest ->
  infer_sourcelanguage oofile_bool inputstore targetlanguage =
  ret (if Py.isdigit language0 then "01" else "en-US").
Proof.
  intros Ht Hb Hl. apply truthy_opt_false in Ht. unfold infer_sourcelanguage.
  rewrite Ht, Hb, Hl. simpl. rewrite !bind_ret_l.
  destruct language0; reflexivity.
Qed.

(** ... and the empty string for a false store. *)
Lemma infer_sourcelanguage_false_store (oofile_bool : oofile -> bool)
    (inputstore : oofile) (targetlanguage : option string) :
  unset targetlanguage ->
  oofile_bool inputstore = false ->
  infer_sourcelanguage oofile_bool inputstore targetlanguage = ret "en-US".
Proof.
  intros Ht Hb. apply truthy_opt_false in Ht. unfold infer_sourcelanguage.
  rewrite Ht, Hb. now rewrite bind_ret_l.
Qed.

(** A true store without any language tag: indexing its language list
    raises, and no source language is inferred. *)
Lemma infer_sourcelanguage_no_language (oofile_bool : oofile -> bool)
    (inputstore : oofile) (targetlanguage : option string) :
  unset targetlanguage ->
  oofile_bool inputstore = true ->
  oofile_languages inputstore = [] ->
  infer_sourcelanguage oofile_bool inputstore targetlanguage = raise IndexError.
Proof.
  intros Ht Hb Hl. apply truthy_opt_false in Ht. unfold infer_sourcelanguage.
  rewrite Ht, Hb, Hl. reflexivity.
Qed.

(** C9, on the code.  With neither a source nor a target language given and
    an input in which the parser finds no language tag, the store object
    being true as Python objects are by default, [convertoo] does not fall
    back to the empty string and "en-US": it raises [IndexError] before
    anything is logged or converted. *)
Theorem convertoo_no_language_raises (makekey : list string -> bool -> string)
    (urlencode : list (string * string) -> string)
    (pofile_isempty : pofile -> bool) (inputfile : infile) (pot : bool)
    (duplicatestyle multifilestyle : option string) :
  convertoo makekey urlencode parse_nothing object_bool pofile_isempty
    inputfile pot None None duplicatestyle multifilestyle
  = raise IndexError.
Proof. reflexivity. Qed.

(** ** Further properties of one record *)

(** X1. The source strings of a record's units are the subfields of the
    source projection that are not empty, unchanged and in subfield order,
    and every unit is tagged UTF-8. *)
Theorem unit_sources_preserved (makekey : list string -> bool -> string)
    (self : oo2po) (theoo : oounit) (part1 : ooline) :
  languages theoo !! sourcelanguage self = Some part1 ->
  exists unitlist : list pounit,
    convertelement makekey self theoo = ret unitlist /\
    map source unitlist =
    filter (fun t => t <> "") [text part1; quickhelptext part1; title part1] /\
    Forall (fun u => encoding u = "UTF-8") unitlist.
Proof.
  intros H. eexists. split; [apply (convertelement_units makekey self theoo part1 H)|].
  split.
  - rewrite map_map. cbn [source built_unit]. unfold subkeys.
    change [text part1; quickhelptext part1; title part1]
      with (map (getattr part1) [Text; Quickhelptext; Title]).
    generalize [Text; Quickhelptext; Title]. intros l.
    induction l as [|k l IH]; [reflexivity|]. cbn [map].
    destruct (decide (getattr part1 k <> "")) as [Hk|Hk].
    + rewrite (filter_cons_True _ k l Hk).
      rewrite (filter_cons_True (fun t : string => t <> "") (getattr part1 k)
                 (map (getattr part1) l) Hk).
      cbn [map]. now rewrite IH.
    + rewrite (filter_cons_False _ k l Hk).
      rewrite (filter_cons_False (fun t : string => t <> "") (getattr part1 k)
                 (map (getattr part1) l) Hk).
      exact IH.
  - apply Forall_forall. intros u Hin.
    apply list_elem_of_fmap in Hin as (k & -> & _). reflexivity.
Qed.

Lemma unit_sources_preserved_witness :
  exists unitlist : list pounit,
    convertelement sample_makekey converter_en_fr record_full = ret unitlist /\
    map source unitlist =
    filter (fun t => t <> "")
      [text line_full_en; quickhelptext line_full_en; title line_full_en] /\
    Forall (fun u => encoding u = "UTF-8") unitlist.
Proof.
  apply (unit_sources_preserved sample_makekey converter_en_fr record_full
           line_full_en).
  vm_compute. reflexivity.
Defined.

(** X2. With blank-target mode off and the target language present in the
    record, each unit pairs a source subfield with the same subfield of the
    target projection, empty or not. *)
Theorem units_pair_source_with_target (makekey : list string -> bool -> string)
    (self : oo2po) (theoo : oounit) (part1 part2 : ooline) :
  blankmsgstr self = false ->
  languages theoo !! sourcelanguage self = Some part1 ->
  dict_get (languages theoo) (targetlanguage self) = Some part2 ->
  exists unitlist : list pounit,
    convertelement makekey self theoo = ret unitlist /\
    map (fun u => (source u, target u)) unitlist =
    map (fun k => (getattr part1 k, getattr part2 k))
      (filter (fun k => getattr part1 k <> "") [Text; Quickhelptext; Title]).
Proof.
  intros Hb Hs Ht.
  eexists. split; [apply (convertelement_units makekey self theoo part1 Hs)|].
  rewrite map_map. unfold target_projection. rewrite Hb, Ht. reflexivity.
Qed.

Lemma units_pair_source_with_target_witness :
  exists unitlist : list pounit,
    convertelement sample_makekey converter_en_fr record_en_fr = ret unitlist /\
    map (fun u => (source u, target u)) unitlist =
    map (fun k => (getattr line_en k, getattr line_fr k))
      (filter (fun k => getattr line_en k <> "") [Text; Quickhelptext; Title]).
Proof.
  apply (units_pair_source_with_target sample_makekey converter_en_fr
           record_en_fr line_en line_fr); vm_compute; reflexivity.
Defined.

(** X3. The units of one record have pairwise distinct location
    references. *)
Theorem record_locations_distinct (makekey : list string -> bool -> string)
    (self : oo2po) (theoo : oounit) (unitlist : list pounit) :
  outcome (convertelement makekey self theoo) = inr unitlist ->
  NoDup (map locations unitlist).
Proof.
  intros H. apply units_of_outcome in H. subst unitlist.
  destruct (languages theoo !! sourcelanguage self) as [part1|] eqn:Hs.
  - rewrite (units_of_found makekey self theoo part1 Hs), map_map.
    cbn [locations built_unit].
    apply NoDup_fmap_2.
    + intros k k' [= Hk]. now apply location_of_inj in Hk.
    + apply NoDup_filter. unfold subkeys.
      repeat (apply NoDup_cons; split;
              [intros Hin;
               repeat (apply elem_of_cons in Hin as [Hin|Hin]; [discriminate|]);
               now apply elem_of_nil in Hin|]).
      apply NoDup_nil_2.
  - rewrite (units_of_missing makekey self theoo Hs). apply NoDup_nil_2.
Qed.

Lemma record_locations_distinct_witness :
  NoDup [["1#x.text"]; ["1#x.quickhelptext"]; ["1#x.title"]].
Proof.
  apply (record_locations_distinct sample_makekey converter_en_fr record_full
           (units_of sample_makekey converter_en_fr record_full)).
  vm_compute. reflexivity.
Defined.

(** Trimming leaves nothing exactly when every character is whitespace. *)
Lemma all_chars_rev_app (p : ascii -> bool) (s acc : string) :
  Py.all_chars p (String.rev_app s acc) = Py.all_chars p s && Py.all_chars p acc.
Proof.
  revert acc. induction s as [|c s IH]; intros acc; simpl; [reflexivity|].
  rewrite IH. simpl. destruct (p c), (Py.all_chars p s); reflexivity.
Qed.

Lemma all_chars_rev (p : ascii -> bool) (s : string) :
  Py.all_chars p (String.rev s) = Py.all_chars p s.
Proof.
  unfold String.rev. rewrite all_chars_rev_app. simpl. apply andb_true_r.
Qed.

Lemma rev_app_empty (s acc : string) :
  String.rev_app s acc = "" -> s = "" /\ acc = "".
Proof.
  revert acc. induction s as [|c s IH]; intros acc; simpl; [auto|].
  intros H. apply IH in H as [_ H]. discriminate.
Qed.

Lemma lstrip_all_chars (s : string) :
  Py.all_chars Py.isspace_char (Py.lstrip s) = Py.all_chars Py.isspace_char s.
Proof.
  induction s as [|c s IH]; simpl; [reflexivity|].
  destruct (Py.isspace_char c) eqn:E; simpl; [exact IH | now rewrite E].
Qed.

Lemma lstrip_truthy (s : string) :
  Py.truthy (Py.lstrip s) = negb (Py.all_chars Py.isspace_char s).
Proof.
  induction s as [|c s IH]; simpl; [reflexivity|].
  destruct (Py.isspace_char c); simpl; [exact IH | reflexivity].
Qed.

Lemma rev_truthy (s : string) : Py.truthy (String.rev s) = Py.truthy s.
Proof.
  destruct (String.rev s) eqn:E.
  - apply rev_app_empty in E as [-> _]. reflexivity.
  - destruct s; [discriminate | reflexivity].
Qed.

Lemma strip_truthy (s : string) :
  Py.truthy (Py.strip s) = negb (Py.all_chars Py.isspace_char s).
Proof.
  unfold Py.strip, Py.rstrip.
  now rewrite rev_truthy, lstrip_truthy, all_chars_rev, lstrip_all_chars.
Qed.

(** X4. A unit gets a developer note exactly when the comment subfield
    holds at least one character that is not whitespace: an empty or
    all-whitespace comment is dropped, any other is attached. *)
Theorem note_iff_nonspace_character (part1 part2 comment : ooline)
    (key : string) (k : subkey) (u : pounit) :
  maketargetunit part1 part2 comment key k = Some u ->
  (notes u = [(getattr comment k, "developer")] <->
   Py.all_chars Py.isspace_char (getattr comment k) = false) /\
  (notes u = [] <-> Py.all_chars Py.isspace_char (getattr comment k) = true).
Proof.
  intros Hu. apply maketargetunit_Some in Hu as [_ ->]. cbn [notes].
  rewrite strip_truthy.
  destruct (Py.all_chars Py.isspace_char (getattr comment k)); simpl;
    split; split; congruence.
Qed.

Lemma note_iff_nonspace_character_witness :
  notes (built_unit line_full_en line_full_fr line_comment "1#x" Quickhelptext) = []
  /\ getattr line_comment Quickhelptext = "   ".
Proof.
  split; [|reflexivity].
  apply (proj2 (note_iff_nonspace_character line_full_en line_full_fr
                  line_comment "1#x" Quickhelptext _ eq_refl)).
  reflexivity.
Defined.

(** ** Further properties of the catalog assembly *)

Section StoreRuns.

Variable makekey : list string -> bool -> string.
Variable urlencode : list (string * string) -> string.

Lemma convertelement_lineless (self : oo2po) (theoo : oounit) :
  lineless self theoo -> convertelement makekey self theoo = raise IndexError.
Proof. intros [Hs Hl]. now apply convertelement_missing_nolines. Qed.

Lemma convertelement_not_lineless (self : oo2po) (theoo : oounit) :
  ~ lineless self theoo ->
  convertelement makekey self theoo =
  (logs (convertelement makekey self theoo), inr (units_of makekey self theoo)).
Proof.
  intros Hn. unfold units_of.
  destruct (languages theoo !! sourcelanguage self) as [part1|] eqn:Hs.
  - rewrite (convertelement_found makekey self theoo part1 Hs). reflexivity.
  - destruct (lines theoo) as [|line0 rest] eqn:E.
    + elim Hn. now split.
    + now rewrite (convertelement_missing makekey self theoo line0 rest Hs E).
Qed.

Lemma lineless_dec (self : oo2po) (theoo : oounit) :
  lineless self theoo \/ ~ lineless self theoo.
Proof.
  unfold lineless.
  destruct (languages theoo !! sourcelanguage self); [right; intros [H _]; discriminate|].
  destruct (lines theoo); [left; split; reflexivity | right; intros [_ H]; discriminate].
Qed.

Lemma convertunits_raises_iff (self : oo2po) (units : list oounit) (f : pofile) :
  (exists e, outcome (convertunits makekey self units f) = inl e) <->
  Exists (lineless self) units.
Proof.
  revert f. induction units as [|theoo rest IH]; intros f; simpl.
  - split; [intros [e H]; discriminate | intros H; inversion H].
  - destruct (lineless_dec self theoo) as [Hb|Hg].
    + rewrite (convertelement_lineless self theoo Hb).
      split; [intros _; now apply Exists_cons_hd | intros _; now exists IndexError].
    + rewrite (convertelement_not_lineless self theoo Hg), bind_value.
      cbn [outcome snd]. fold (@outcome pofile). rewrite IH.
      split; [intros H; now apply Exists_cons_tl|].
      intros H. inversion H; subst; [contradiction | assumption].
Qed.

Lemma convertunits_raises_IndexError (self : oo2po) (units : list oounit)
    (f : pofile) (e : exn) :
  outcome (convertunits makekey self units f) = inl e -> e = IndexError.
Proof.
  revert f. induction units as [|theoo rest IH]; intros f; simpl.
  - discriminate.
  - destruct (lineless_dec self theoo) as [Hb|Hg].
    + rewrite (convertelement_lineless self theoo Hb). now intros [= <-].
    + rewrite (convertelement_not_lineless self theoo Hg), bind_value.
      cbn [outcome snd]. apply IH.
Qed.

Lemma convertstore_outcome_inl (self : oo2po) (theoofile : oofile)
    (duplicatestyle : option string) (e : exn) :
  outcome (convertstore makekey urlencode self theoofile duplicatestyle) = inl e <->
  outcome (convertunits makekey self (oofile_units theoofile)
             (targetheader urlencode self theoofile)) = inl e.
Proof.
  unfold convertstore.
  destruct (convertunits makekey self (oofile_units theoofile)
              (targetheader urlencode self theoofile)) as [l [e'|o]].
  - rewrite bind_raise. reflexivity.
  - rewrite bind_value. simpl. split; discriminate.
Qed.

End StoreRuns.

(** X5. When [convertstore] returns, the catalog is, in call order: the
    header (accelerator marker "~", merge on "location", the bug-report URL
    and the note built from the store's file name, the converter's source
    and target language), then the units of every record in store order,
    then one duplicate resolution with the requested style, "msgctxt" when
    none is given. *)
Theorem convertstore_catalog (makekey : list string -> bool -> string)
    (urlencode : list (string * string) -> string) (self : oo2po)
    (theoofile : oofile) (duplicatestyle : option string) (out : pofile) :
  outcome (convertstore makekey urlencode self theoofile duplicatestyle) = inr out ->
  out =
  [InitHeaders "~" "location"
     ("http://qa.openoffice.org/issues/enter_bug.cgi?" +:+
      urlencode [("subcomponent", "ui"); ("comment", "");
                 ("short_desc",
                  "Localization issue in file: " +:+ oofile_filename theoofile);
                 ("component", "l10n"); ("form_name", "enter_issue")]);
   HeaderAddnote ("extracted from " +:+ oofile_filename theoofile) "developer";
   SetSourceLanguage (sourcelanguage self);
   SetTargetLanguage (targetlanguage self)]
  ++ map AddUnit (flat_map (units_of makekey self) (oofile_units theoofile))
  ++ [RemoveDuplicates
        match duplicatestyle with Some d => d | None => "msgctxt" end].
Proof.
  intros H. apply convertstore_inr in H. rewrite H.
  unfold targetheader. destruct duplicatestyle; reflexivity.
Qed.

Lemma convertstore_catalog_witness :
  exists out : pofile,
    outcome (convertstore sample_makekey sample_urlencode converter_en_fr
               store_sample (Some "merge")) = inr out /\
    length (added_units out) = 4 /\
    last out = Some (RemoveDuplicates "merge").
Proof.
  destruct (outcome (convertstore sample_makekey sample_urlencode converter_en_fr
                       store_sample (Some "merge"))) as [e|out] eqn:E;
    [vm_compute in E; discriminate|].
  exists out. split; [reflexivity|].
  rewrite (convertstore_catalog sample_makekey sample_urlencode converter_en_fr
             store_sample (Some "merge") out E).
  vm_compute. split; reflexivity.
Defined.

(** X6. [convertstore] raises exactly when some record of the store has
    neither the source language nor a line, and what it raises then is
    [IndexError]. *)
Theorem convertstore_raises_iff (makekey : list string -> bool -> string)
    (urlencode : list (string * string) -> string) (self : oo2po)
    (theoofile : oofile) (duplicatestyle : option string) :
  ((exists e, outcome (convertstore makekey urlencode self theoofile duplicatestyle)
              = inl e) <->
   Exists (fun theoo => languages theoo !! sourcelanguage self = None /\
                        lines theoo = [])
     (oofile_units theoofile)) /\
  (forall e, outcome (convertstore makekey urlencode self theoofile duplicatestyle)
             = inl e -> e = IndexError).
Proof.
  split.
  - rewrite <- (convertunits_raises_iff makekey self (oofile_units theoofile)
                  (targetheader urlencode self theoofile)).
    split; intros [e H]; exists e;
      [apply (proj1 (convertstore_outcome_inl makekey urlencode self theoofile
                       duplicatestyle e) H)
      |apply (proj2 (convertstore_outcome_inl makekey urlencode self theoofile
                       duplicatestyle e) H)].
  - intros e H.
    apply (proj1 (convertstore_outcome_inl makekey urlencode self theoofile
                    duplicatestyle e)) in H.
    now apply convertunits_raises_IndexError in H.
Qed.

Lemma convertstore_raises_iff_witness :
  outcome (convertstore sample_makekey sample_urlencode converter_en_fr
             store_lineless None) = inl IndexError.
Proof.
  destruct (convertstore_raises_iff sample_makekey sample_urlencode
              converter_en_fr store_lineless None) as [Hiff Hexn].
  destruct (outcome (convertstore sample_makekey sample_urlencode converter_en_fr
                       store_lineless None)) as [e|o] eqn:E.
  - now rewrite (Hexn e eq_refl).
  - exfalso. destruct (proj2 Hiff) as [e He]; [|discriminate].
    apply Exists_cons_tl, Exists_cons_hd. split; reflexivity.
Defined.

Lemma convertunits_not_lineless (makekey : list string -> bool -> string)
    (self : oo2po) (units : list oounit) (f : pofile) :
  Forall (fun theoo => ~ lineless self theoo) units ->
  convertunits makekey self units f =
  (flat_map (fun theoo => logs (convertelement makekey self theoo)) units,
   inr (f ++ map AddUnit (flat_map (units_of makekey self) units))).
Proof.
  intros Hwf. revert f. induction Hwf as [|theoo rest Hl _ IH]; intros f; simpl.
  - now rewrite app_nil_r.
  - pose proof (convertelement_not_lineless makekey self theoo Hl) as E.
    unfold units_of in *.
    destruct (convertelement makekey self theoo) as [l [e|unitlist]];
      simpl in *; [discriminate|].
    rewrite bind_value, IH. simpl.
    rewrite fold_addunit, map_app, app_assoc. reflexivity.
Qed.

(** X7. On a store whose records all have the source language,
    [convertstore] logs nothing and returns, whether or not the records
    have lines, target languages or comments. *)
Theorem convertstore_clean_run (makekey : list string -> bool -> string)
    (urlencode : list (string * string) -> string) (self : oo2po)
    (theoofile : oofile) (duplicatestyle : option string) :
  Forall (fun theoo => is_Some (languages theoo !! sourcelanguage self))
    (oofile_units theoofile) ->
  logs (convertstore makekey urlencode self theoofile duplicatestyle) = [] /\
  exists out : pofile,
    outcome (convertstore makekey urlencode self theoofile duplicatestyle) = inr out.
Proof.
  intros Hall. unfold convertstore.
  rewrite convertunits_not_lineless.
  - rewrite bind_value. cbn [logs outcome fst snd ret]. rewrite app_nil_r.
    split; [|eauto].
    induction Hall as [|theoo rest [part1 Hs] _ IH]; [reflexivity|].
    cbn [flat_map]. rewrite IH, app_nil_r.
    now rewrite (convertelement_found makekey self theoo part1 Hs).
  - eapply Forall_impl; [exact Hall|].
    intros theoo [part1 Hs] [Hn _]. congruence.
Qed.

Lemma convertstore_clean_run_witness :
  logs (convertstore sample_makekey sample_urlencode converter_en_fr store_en None)
  = [] /\
  exists out : pofile,
    outcome (convertstore sample_makekey sample_urlencode converter_en_fr
               store_en None) = inr out.
Proof.
  apply (convertstore_clean_run sample_makekey sample_urlencode converter_en_fr
           store_en None).
  repeat constructor; vm_compute; eauto.
Defined.

(** X8. On a store in which no record has the source language (the
    records having a line each), [convertstore] logs one error per record,
    in store order, each with the key of the record's first line, and
    returns a catalog without units. *)
Theorem convertstore_without_source_language
    (makekey : list string -> bool -> string)
    (urlencode : list (string * string) -> string) (self : oo2po)
    (theoofile : oofile) (duplicatestyle : option string) :
  Forall has_line (oofile_units theoofile) ->
  Forall (fun theoo => languages theoo !! sourcelanguage self = None)
    (oofile_units theoofile) ->
  logs (convertstore makekey urlencode self theoofile duplicatestyle) =
  map (fun theoo =>
         LogRecord ERROR "%s language not found: %s"
           [Py.join "/" (getkey (default ooline_blank (head (lines theoo))));
            sourcelanguage self])
    (oofile_units theoofile) /\
  exists out : pofile,
    outcome (convertstore makekey urlencode self theoofile duplicatestyle) = inr out /\
    added_units out = [].
Proof.
  intros Hwf Hnone.
  rewrite (convertstore_returns makekey urlencode self theoofile _ Hwf).
  cbn [logs outcome fst snd].
  assert (Hu : flat_map (units_of makekey self) (oofile_units theoofile) = []).
  { induction Hnone as [|theoo rest Hs _ IH]; [reflexivity|].
    apply Forall_cons in Hwf as [_ Hwf].
    cbn [flat_map]. rewrite (IH Hwf), (units_of_missing makekey self theoo Hs).
    reflexivity. }
  split.
  - clear Hu. induction Hnone as [|theoo rest Hs _ IH]; [reflexivity|].
    apply Forall_cons in Hwf as [Hl Hwf].
    cbn [flat_map map]. rewrite (IH Hwf).
    destruct (lines theoo) as [|line0 more] eqn:E; [now elim Hl|].
    rewrite (convertelement_missing makekey self theoo line0 more Hs E).
    reflexivity.
  - eexists. split; [reflexivity|]. rewrite Hu. reflexivity.
Qed.

Lemma convertstore_without_source_language_witness :
  logs (convertstore sample_makekey sample_urlencode converter_en_fr
          store_fr_only None) =
  map (fun theoo =>
         LogRecord ERROR "%s language not found: %s"
           [Py.join "/" (getkey (default ooline_blank (head (lines theoo))));
            sourcelanguage converter_en_fr])
    (oofile_units store_fr_only) /\
  exists out : pofile,
    outcome (convertstore sample_makekey sample_urlencode converter_en_fr
               store_fr_only None) = inr out /\
    added_units out = [].
Proof.
  apply (convertstore_without_source_language sample_makekey sample_urlencode
           converter_en_fr store_fr_only None).
  - repeat constructor; discriminate.
  - repeat constructor.
Defined.

(** ** Further properties of [convertoo] *)

Section TopLevel.

Variable makekey : list string -> bool -> string.
Variable urlencode : list (string * string) -> string.
Variable oofile_parse : string -> list oounit * list string.
Variable oofile_bool : oofile -> bool.
Variable pofile_isempty : pofile -> bool.

(** What a returning [convertoo] went through: a source language was
    settled, [convertstore] returned a catalog for the converter built
    from it, and the result was chosen by [isempty]. *)
Lemma convertoo_inr (inputfile : infile) (pot : bool)
    (sourcelanguage targetlanguage duplicatestyle multifilestyle : option string)
    (r : Z * option pofile) :
  outcome (convertoo makekey urlencode oofile_parse oofile_bool pofile_isempty
             inputfile pot sourcelanguage targetlanguage duplicatestyle
             multifilestyle) = inr r ->
  exists (s : string) (o : pofile),
    outcome (if negb (Py.truthy_opt sourcelanguage)
             then infer_sourcelanguage oofile_bool
                    (inputstore_of oofile_parse inputfile) targetlanguage
             else ret (default "" sourcelanguage)) = inr s /\
    outcome (convertstore makekey urlencode
               (convertor_of s targetlanguage pot multifilestyle)
               (inputstore_of oofile_parse inputfile)
               (Some (default convertoo_duplicatestyle duplicatestyle))) = inr o /\
    r = if pofile_isempty o then (0%Z, None) else (1%Z, Some o).
Proof.
  unfold convertoo. intros H.
  apply bind_inr in H as (s & Hs & H).
  apply bind_inr in H as (? & _ & H).
  apply bind_inr in H as (? & _ & H).
  apply bind_inr in H as (o & Ho & H).
  exists s, o. split; [exact Hs|]. split; [exact Ho|].
  destruct (pofile_isempty o); simpl in H; congruence.
Qed.

Lemma infer_sourcelanguage_values (inputstore : oofile)
    (targetlanguage : option string) (s : string) :
  outcome (infer_sourcelanguage oofile_bool inputstore targetlanguage) = inr s ->
  s = "01" \/ s = "en-US".
Proof.
  unfold infer_sourcelanguage. intros H.
  apply bind_inr in H as (t & _ & H). simpl in H.
  destruct (Py.isdigit t); injection H as <-; auto.
Qed.


End TopLevel.

Lemma resolved_source_values (oofile_bool : oofile -> bool) (inputstore : oofile)
    (sourcelanguage targetlanguage : option string) (s : string) :
  outcome (if negb (Py.truthy_opt sourcelanguage)
           then infer_sourcelanguage oofile_bool inputstore targetlanguage
           else ret (default "" sourcelanguage)) = inr s ->
  (unset sourcelanguage /\
   outcome (infer_sourcelanguage oofile_bool inputstore targetlanguage) = inr s) \/
  (sourcelanguage = Some s /\ s <> "").
Proof.
  destruct (Py.truthy_opt sourcelanguage) eqn:E; cbn [negb].
  - destruct sourcelanguage as [s0|]; [|discriminate]. simpl in E.
    apply truthy_true in E. intros [= <-]. right. now split.
  - apply truthy_opt_false in E. intros H. left. now split.
Qed.

(** X9. [convertoo] returns 0 and serializes nothing, or returns 1 and
    serializes a catalog that [isempty] rejects: an empty catalog is never
    written. *)
Theorem convertoo_never_writes_empty (makekey : list string -> bool -> string)
    (urlencode : list (string * string) -> string)
    (oofile_parse : string -> list oounit * list string)
    (oofile_bool : oofile -> bool) (pofile_isempty : pofile -> bool)
    (inputfile : infile) (pot : bool)
    (sourcelanguage targetlanguage duplicatestyle multifilestyle : option string)
    (n : Z) (written : option pofile) :
  outcome (convertoo makekey urlencode oofile_parse oofile_bool pofile_isempty
             inputfile pot sourcelanguage targetlanguage duplicatestyle
             multifilestyle) = inr (n, written) ->
  (n = 0%Z /\ written = None) \/
  (n = 1%Z /\ exists out, written = Some out /\ pofile_isempty out = false).
Proof.
  intros H. apply convertoo_inr in H as (s & o & _ & _ & H).
  destruct (pofile_isempty o) eqn:E; injection H as -> ->; [left | right]; eauto.
Qed.

Lemma convertoo_never_writes_empty_witness :
  exists out : pofile,
    outcome (convertoo sample_makekey sample_urlencode sample_parse object_bool
               sample_isempty sample_infile false None (Some "fr") None None)
    = inr (1%Z, Some out) /\ sample_isempty out = false.
Proof.
  destruct (convertoo_never_writes_empty sample_makekey sample_urlencode
              sample_parse object_bool sample_isempty sample_infile false None
              (Some "fr") None None 1%Z
              (snd (match outcome (convertoo sample_makekey sample_urlencode
                                     sample_parse object_bool sample_isempty
                                     sample_infile false None (Some "fr") None None)
                    with inr r => r | inl _ => (0%Z, None) end)))
    as [[H _]|[_ (out & Hw & He)]].
  - vm_compute. reflexivity.
  - discriminate.
  - exists out. split; [|exact He]. rewrite <- Hw. vm_compute. reflexivity.
Defined.

(** X10. In POT mode every unit of a catalog [convertoo] serializes has
    an empty target, whatever target language was asked for and whatever
    the input holds. *)
Theorem convertoo_pot_blank_targets (makekey : list string -> bool -> string)
    (urlencode : list (string * string) -> string)
    (oofile_parse : string -> list oounit * list string)
    (oofile_bool : oofile -> bool) (pofile_isempty : pofile -> bool)
    (inputfile : infile)
    (sourcelanguage targetlanguage duplicatestyle multifilestyle : option string)
    (n : Z) (out : pofile) :
  outcome (convertoo makekey urlencode oofile_parse oofile_bool pofile_isempty
             inputfile true sourcelanguage targetlanguage duplicatestyle
             multifilestyle) = inr (n, Some out) ->
  forall u, u ∈ added_units out -> target u = "".
Proof.
  intros H u Hin. apply convertoo_inr in H as (s & o & _ & Ho & H).
  destruct (pofile_isempty o); [discriminate|]. injection H as _ <-.
  apply convertstore_inr in Ho. subst out.
  rewrite !added_units_app, added_units_map in Hin. simpl in Hin.
  rewrite app_nil_r in Hin.
  apply list_elem_of_In, in_flat_map in Hin as (theoo & _ & Hin).
  apply list_elem_of_In in Hin.
  now apply (units_of_blank_target makekey
               (convertor_of s targetlanguage true multifilestyle) theoo).
Qed.

Lemma convertoo_pot_blank_targets_witness :
  exists out : pofile,
    outcome (convertoo sample_makekey sample_urlencode sample_parse object_bool
               sample_isempty sample_infile true None (Some "fr") None None)
    = inr (1%Z, Some out) /\
    length (added_units out) = 4 /\
    forall u, u ∈ added_units out -> target u = "".
Proof.
  eexists. split; [vm_compute; reflexivity|]. split; [vm_compute; reflexivity|].
  apply (convertoo_pot_blank_targets sample_makekey sample_urlencode sample_parse
           object_bool sample_isempty sample_infile None (Some "fr") None None 1%Z).
  vm_compute. reflexivity.
Defined.

Lemma declared_sources_app (f g : pofile) :
  declared_sources (f ++ g) = declared_sources f ++ declared_sources g.
Proof. unfold declared_sources. apply omap_app. Qed.

Lemma declared_sources_map (unitlist : list pounit) :
  declared_sources (map AddUnit unitlist) = [].
Proof. induction unitlist; simpl; [reflexivity | assumption]. Qed.

(** X11. A catalog [convertoo] serializes is declared with one source
    language: the one supplied when one is supplied (and not empty);
    otherwise "01" or "en-US", and with a target language given (and not
    empty) it is "01" exactly when that tag [isdigit]. *)
Theorem convertoo_declared_source (makekey : list string -> bool -> string)
    (urlencode : list (string * string) -> string)
    (oofile_parse : string -> list oounit * list string)
    (oofile_bool : oofile -> bool) (pofile_isempty : pofile -> bool)
    (inputfile : infile) (pot : bool)
    (sourcelanguage targetlanguage duplicatestyle multifilestyle : option string)
    (n : Z) (out : pofile) :
  outcome (convertoo makekey urlencode oofile_parse oofile_bool pofile_isempty
             inputfile pot sourcelanguage targetlanguage duplicatestyle
             multifilestyle) = inr (n, Some out) ->
  exists s : string,
    declared_sources out = [s] /\
    (forall s0, sourcelanguage = Some s0 -> s0 <> "" -> s = s0) /\
    (unset sourcelanguage -> s = "01" \/ s = "en-US") /\
    (unset sourcelanguage ->
     forall t, targetlanguage = Some t -> t <> "" ->
               s = if Py.isdigit t then "01" else "en-US").
Proof.
  intros H. apply convertoo_inr in H as (s & o & Hs & Ho & H).
  destruct (pofile_isempty o); [discriminate|]. injection H as _ <-.
  apply convertstore_inr in Ho. exists s. split.
  - rewrite Ho, !declared_sources_app, declared_sources_map. reflexivity.
  - apply resolved_source_values in Hs as [[Hu Hi]|[-> Hne]].
    + split; [|split].
      * intros s0 -> Hne. destruct Hu as [Hu|Hu]; congruence.
      * intros _. now apply infer_sourcelanguage_values in Hi.
      * intros _ t -> Ht.
        rewrite (infer_sourcelanguage_target oofile_bool _ t Ht) in Hi.
        now injection Hi as <-.
    + split; [|split].
      * now intros s0 [= <-] _.
      * intros [Hu|Hu]; congruence.
      * intros [Hu|Hu]; congruence.
Qed.

Lemma convertoo_declared_source_witness :
  exists (out : pofile) (s : string),
    outcome (convertoo sample_makekey sample_urlencode sample_parse object_bool
               sample_isempty sample_infile false None (Some "fr") None None)
    = inr (1%Z, Some out) /\
    declared_sources out = [s] /\ s = "en-US".
Proof.
  destruct (outcome (convertoo sample_makekey sample_urlencode sample_parse
                       object_bool sample_isempty sample_infile false None
                       (Some "fr") None None)) as [e|[n [out|]]] eqn:E;
    try (vm_compute in E; discriminate).
  assert (Hn : n = 1%Z) by (vm_compute in E; congruence). subst n.
  destruct (convertoo_declared_source sample_makekey sample_urlencode sample_parse
              object_bool sample_isempty sample_infile false None (Some "fr")
              None None 1%Z out E) as (s & Hd & _ & _ & Ht).
  exists out, s. split; [reflexivity|]. split; [exact Hd|].
  apply (Ht (or_introl eq_refl) "fr" eq_refl). discriminate.
Defined.






